(** * A middleware-decorated HTTP client (main.go)

    Shallow embedding of [main.go]: the [HTTPClient] capability, the two
    authentication middlewares, [NewCustomClient] and [CustomClient.Get],
    together with the parts of the Go standard library the program calls
    ([net/http]'s header map and basic-auth helpers, [encoding/base64],
    [io.ReadAll], [fmt.Errorf] with [%w]).

    Go strings are byte sequences; they are modelled as [string], whose
    characters ([ascii]) are exactly the 256 byte values. *)

From Stdlib Require Import NArith Ascii String List Lia Bool.
From stdpp Require Import base option gmap strings list fin_maps.

Local Open Scope string_scope.

(* ===================================================================== *)
(** ** encoding/base64: [StdEncoding]                                     *)
(* ===================================================================== *)

Module Base64.

(** [encodeStd]: the standard alphabet of RFC 4648. *)
Definition encodeStd : string :=
  "ABCDEFGHIJKLMNOPQRSTUVWXYZabcdefghijklmnopqrstuvwxyz0123456789+/".

(** [StdPadding]. *)
Definition padChar : ascii := "="%char.

(** [enc.encode[i]]: the alphabet as a 64-entry table. *)
Definition encode (i : N) : ascii :=
  match String.get (N.to_nat i) encodeStd with
  | Some c => c
  | None => "000"%char
  end.

(** Position of [c] in [s], counted from [i]; [255] when absent. *)
Fixpoint index_from (i : N) (c : ascii) (s : string) : N :=
  match s with
  | EmptyString => 255
  | String d s' => if Ascii.eqb c d then i else index_from (N.succ i) c s'
  end.

(** [enc.decodeMap[c]]: inverse table, [0xFF] marks an invalid byte. *)
Definition decodeMap (c : ascii) : N := index_from 0 c encodeStd.

(** [byte(x)]: conversion of a [uint] to a byte keeps the low 8 bits. *)
Definition byte (x : N) : ascii := ascii_of_N (N.land x 255).

(** The three-byte group [val] of [Encode]:
    [uint(src[si+0])<<16 | uint(src[si+1])<<8 | uint(src[si+2])]. *)
Definition group (b0 b1 b2 : ascii) : N :=
  N.lor (N.lor (N.shiftl (N_of_ascii b0) 16) (N.shiftl (N_of_ascii b1) 8))
        (N_of_ascii b2).

(** [enc.encode[val>>sh&0x3F]]. *)
Definition sextet (val sh : N) : ascii :=
  encode (N.land (N.shiftr val sh) 63).

(** [Encoding.EncodeToString] for [StdEncoding]: full groups of three
    bytes, then the remainder of one or two bytes with padding. *)
Fixpoint EncodeToString (src : string) : string :=
  match src with
  | EmptyString => EmptyString
  | String b0 EmptyString =>
      let val := N.shiftl (N_of_ascii b0) 16 in
      String (sextet val 18) (String (sextet val 12)
        (String padChar (String padChar EmptyString)))
  | String b0 (String b1 EmptyString) =>
      let val := N.lor (N.shiftl (N_of_ascii b0) 16)
                       (N.shiftl (N_of_ascii b1) 8) in
      String (sextet val 18) (String (sextet val 12)
        (String (sextet val 6) (String padChar EmptyString)))
  | String b0 (String b1 (String b2 rest)) =>
      let val := group b0 b1 b2 in
      String (sextet val 18) (String (sextet val 12)
        (String (sextet val 6) (String (encode (N.land val 63))
          (EncodeToString rest))))
  end.

(** The decoder skips carriage returns and line feeds wherever they occur. *)
Definition is_newline (c : ascii) : bool :=
  Ascii.eqb c "010"%char || Ascii.eqb c "013"%char.

Fixpoint strip_newlines (s : string) : string :=
  match s with
  | EmptyString => EmptyString
  | String c s' =>
      if is_newline c then strip_newlines s' else String c (strip_newlines s')
  end.

Definition valid (c : ascii) : bool := negb (N.eqb (decodeMap c) 255).

(** [val] of [decodeQuantum]:
    [uint(dbuf[0])<<18 | uint(dbuf[1])<<12 | uint(dbuf[2])<<6 | uint(dbuf[3])]. *)
Definition quantum (d0 d1 d2 d3 : N) : N :=
  N.lor (N.lor (N.lor (N.shiftl d0 18) (N.shiftl d1 12)) (N.shiftl d2 6)) d3.

(** [decodeQuantum], repeated over the newline-free input. A quantum is
    four alphabet bytes, or, last in the input, two or three of them
    followed by padding; anything else is a [CorruptInputError] ([None]).
    As in the non-strict [StdEncoding], trailing bits are not checked. *)
Fixpoint decode_quanta (s : string) : option string :=
  match s with
  | EmptyString => Some EmptyString
  | String c0 (String c1 (String c2 (String c3 rest))) =>
      if valid c0 && valid c1 then
        if valid c2 then
          if valid c3 then
            let val := quantum (decodeMap c0) (decodeMap c1)
                               (decodeMap c2) (decodeMap c3) in
            match decode_quanta rest with
            | Some out =>
                Some (String (byte (N.shiftr val 16))
                       (String (byte (N.shiftr val 8))
                         (String (byte val) out)))
            | None => None
            end
          else if Ascii.eqb c3 padChar then
            match rest with
            | EmptyString =>
                let val := quantum (decodeMap c0) (decodeMap c1)
                                   (decodeMap c2) 0 in
                Some (String (byte (N.shiftr val 16))
                       (String (byte (N.shiftr val 8)) EmptyString))
            | _ => None
            end
          else None
        else if Ascii.eqb c2 padChar && Ascii.eqb c3 padChar then
          match rest with
          | EmptyString =>
              let val := quantum (decodeMap c0) (decodeMap c1) 0 0 in
              Some (String (byte (N.shiftr val 16)) EmptyString)
          | _ => None
          end
        else None
      else None
  | _ => None
  end.

(** [Encoding.DecodeString]. *)
Definition DecodeString (s : string) : option string :=
  decode_quanta (strip_newlines s).

End Base64.

(* ===================================================================== *)
(** ** Errors: the [error] interface, [io.EOF], [fmt.Errorf] with [%w]    *)
(* ===================================================================== *)

(** An error value is the sentinel [io.EOF], an error made outside this
    program (its identity [id] and the text its [Error] method returns),
    or the [*fmt.wrapError] that [fmt.Errorf] builds for a [%w] verb. *)
Inductive error : Type :=
| EOF
| errorString (id : nat) (msg : string)
| wrapError (msg : string) (err : error).

(** [err.Error()]. *)
Definition Error (e : error) : string :=
  match e with
  | EOF => "EOF"
  | errorString _ msg => msg
  | wrapError msg _ => msg
  end.

(** [errors.Unwrap(err)]. *)
Definition Unwrap (e : error) : option error :=
  match e with
  | wrapError _ err => Some err
  | _ => None
  end.

(** [fmt.Errorf(prefix + "%w", err)]. *)
Definition Errorf (prefix : string) (err : error) : error :=
  wrapError (prefix ++ Error err) err.

(** [strings.Contains(s, substr)]. *)
Fixpoint Contains (s substr : string) : bool :=
  String.prefix substr s ||
  match s with
  | EmptyString => false
  | String _ s' => Contains s' substr
  end.

(** Two-valued results of the standard library: a value or an error. *)
Inductive result (A : Type) : Type :=
| Ok (a : A)
| Err (e : error).
Arguments Ok {A} a.
Arguments Err {A} e.

(* ===================================================================== *)
(** ** io.ReadCloser and io.ReadAll                                       *)
(* ===================================================================== *)

(** A body stream is described by what its successive [Read] calls
    return to [io.ReadAll]: [p] bytes and a nil error ([Read_more]), or
    [p] bytes and a non-nil error ([Read_stop]), after which [io.ReadAll]
    reads no more. How [io.ReadAll] sizes its buffer is not modelled. The
    description is finite: the stream reports [io.EOF] or another error
    after finitely many reads, so [io.ReadAll] returns. *)
Inductive ReadCloser : Type :=
| Read_more (p : string) (next : ReadCloser)
| Read_stop (p : string) (err : error).

(** [if err == EOF { err = nil }]. *)
Definition nil_if_EOF (err : error) : option error :=
  match err with
  | EOF => None
  | _ => Some err
  end.

(** [io.ReadAll]: appends what every [Read] returns until the first
    error; [io.EOF] is reported as a nil error. The bytes read so far are
    returned in both cases. *)
Fixpoint ReadAll (r : ReadCloser) : string * option error :=
  match r with
  | Read_more p next =>
      let '(b, err) := ReadAll next in (p ++ b, err)
  | Read_stop p err =>
      (p, nil_if_EOF err)
  end.

(** All bytes the stream delivers before it stops. *)
Fixpoint delivered (r : ReadCloser) : string :=
  match r with
  | Read_more p next => p ++ delivered next
  | Read_stop p _ => p
  end.

(** The error that ends the stream. *)
Fixpoint final_error (r : ReadCloser) : error :=
  match r with
  | Read_more _ next => final_error next
  | Read_stop _ err => err
  end.

(* ===================================================================== *)
(** ** net/http: header map and basic authentication                      *)
(* ===================================================================== *)

(** [http.Header] is [map[string][]string]. *)
Abbreviation Header := (gmap string (list string)).

Definition in_range (lo hi c : ascii) : bool :=
  (N_of_ascii lo <=? N_of_ascii c)%N && (N_of_ascii c <=? N_of_ascii hi)%N.

(** [validHeaderFieldByte]: the token characters of RFC 7230. *)
Definition validHeaderFieldByte (c : ascii) : bool :=
  in_range "a" "z" c || in_range "A" "Z" c || in_range "0" "9" c ||
  Contains "!#$%&'*+-.^_`|~" (String c EmptyString).

Definition toUpper (c : ascii) : ascii :=
  if in_range "a" "z" c then ascii_of_N (N_of_ascii c - 32) else c.
Definition toLower (c : ascii) : ascii :=
  if in_range "A" "Z" c then ascii_of_N (N_of_ascii c + 32) else c.

(** The canonicalising loop: upper case first and after each dash, lower
    case elsewhere. *)
Fixpoint canonicalize (upper : bool) (s : string) : string :=
  match s with
  | EmptyString => EmptyString
  | String c s' =>
      let c' := if upper then toUpper c else toLower c in
      String c' (canonicalize (Ascii.eqb c' "-") s')
  end.

Fixpoint all_bytes (f : ascii -> bool) (s : string) : bool :=
  match s with
  | EmptyString => true
  | String c s' => f c && all_bytes f s'
  end.

(** [textproto.CanonicalMIMEHeaderKey]: a key holding a byte that is not
    a token character is returned unchanged. *)
Definition CanonicalMIMEHeaderKey (s : string) : string :=
  if all_bytes validHeaderFieldByte s then canonicalize true s else s.

(** [Header.Set]: replaces every value stored under the canonical key. *)
Definition Header_Set (key value : string) (h : Header) : Header :=
  <[CanonicalMIMEHeaderKey key := [value]]> h.

(** [Header.Get]: first value under the canonical key, or [""]. *)
Definition Header_Get (key : string) (h : Header) : string :=
  match h !! CanonicalMIMEHeaderKey key with
  | Some (v :: _) => v
  | _ => ""
  end.

(** [basicAuth] of net/http/client.go. *)
Definition basicAuth (username password : string) : string :=
  Base64.EncodeToString (username ++ ":" ++ password).

(** [strings.Cut(s, ":")]: the text before and after the first colon. *)
Fixpoint Cut_colon (s : string) : option (string * string) :=
  match s with
  | EmptyString => None
  | String c s' =>
      if Ascii.eqb c ":" then Some (EmptyString, s')
      else match Cut_colon s' with
           | Some (before, after) => Some (String c before, after)
           | None => None
           end
  end.

(** [ascii.EqualFold]: equality up to the case of ASCII letters. *)
Fixpoint EqualFold (s t : string) : bool :=
  match s, t with
  | EmptyString, EmptyString => true
  | String c s', String d t' => Ascii.eqb (toLower c) (toLower d) && EqualFold s' t'
  | _, _ => false
  end.

(** [parseBasicAuth]: the decoder [Request.BasicAuth] applies to the
    Authorization header. *)
Definition parseBasicAuth (auth : string) : option (string * string) :=
  let prefix := "Basic " in
  if (String.length auth <? String.length prefix)%nat
     || negb (EqualFold (String.substring 0 (String.length prefix) auth) prefix)
  then None
  else
    match Base64.DecodeString
            (String.substring (String.length prefix)
               (String.length auth - String.length prefix) auth) with
    | None => None
    | Some cs => Cut_colon cs
    end.

(** Bytes below 0x20 and DEL are the ASCII control characters. *)
Definition is_control (c : ascii) : bool :=
  (N_of_ascii c <? 32)%N || (N_of_ascii c =? 127)%N.

Definition no_control (s : string) : Prop := all_bytes (fun c => negb (is_control c)) s = true.
Definition no_colon (s : string) : Prop := all_bytes (fun c => negb (Ascii.eqb c ":")) s = true.

(* ===================================================================== *)
(** ** The program                                                        *)
(* ===================================================================== *)

(** What a call yields: its results, or a run-time panic with its
    message. *)
Inductive outcome (A : Type) : Type :=
| Returns (a : A)
| Panics (v : string).
Arguments Returns {A} a.
Arguments Panics {A} v.

Section Program.

(** [W] is whatever state the transports act on (the network, a mock's
    counters). [context_Context] stands for non-nil [context.Context]
    values and [URL] for parsed [*url.URL] values; [url_Parse] is
    [net/url.Parse] followed by the port normalisation that
    [http.NewRequestWithContext] applies. *)
Context {W context_Context URL : Type}.
Variable url_Parse : string -> result URL.

(** [http.Request] as built by [http.NewRequestWithContext]: the header
    map is allocated; [Body] is [None] for a request without a body. *)
Record Request : Type := {
  Method : string;
  req_URL : URL;
  req_Header : Header;
  req_Body : option ReadCloser;
  ctx : context_Context
}.

(** [http.Response]; [None] is a nil [Body]. *)
Record Response : Type := {
  StatusCode : N;
  resp_Header : Header;
  resp_Body : option ReadCloser
}.

(** A computation of a transport: it may change [W] and may panic. *)
Definition T (A : Type) : Type := W -> outcome A * W.

(** The two results of [Do]: a response pointer ([None] is nil) and an
    error ([None] is nil). *)
Definition sent : Type := option Response * option error.

(** [HTTPClient]: the interface with the single method [Do]. *)
Record HTTPClient : Type := { Do : Request -> T sent }.

(** [HTTPClientFunc] and its [Do] method, which calls the function. *)
Definition HTTPClientFunc (fn : Request -> T sent) : HTTPClient :=
  {| Do := fun req => fn req |}.

(** [Middleware]. *)
Definition Middleware : Type := HTTPClient -> HTTPClient.

(** [Request.SetBasicAuth]. The request is updated in place in Go; here
    the updated request is the value handed on. *)
Definition SetBasicAuth (username password : string) (req : Request) : Request :=
  {| Method := Method req;
     req_URL := req_URL req;
     req_Header := Header_Set "Authorization"
                     ("Basic " ++ basicAuth username password) (req_Header req);
     req_Body := req_Body req;
     ctx := ctx req |}.

(** [req.Header.Set(key, value)]. *)
Definition set_Header (key value : string) (req : Request) : Request :=
  {| Method := Method req;
     req_URL := req_URL req;
     req_Header := Header_Set key value (req_Header req);
     req_Body := req_Body req;
     ctx := ctx req |}.

(** [BasicAuthMiddleware] (main.go, lines 27-34). *)
Definition BasicAuthMiddleware (username password : string) : Middleware :=
  fun client =>
    HTTPClientFunc (fun req =>
      let req := SetBasicAuth username password req in
      Do client req).

(** [APIKeyAuthMiddleware] (main.go, lines 37-44). *)
Definition APIKeyAuthMiddleware (apiKey : string) : Middleware :=
  fun client =>
    HTTPClientFunc (fun req =>
      let req := set_Header "Authorization" ("Bearer " ++ apiKey) req in
      Do client req).

(** [CustomClient]. *)
Record CustomClient : Type := { httpClient : HTTPClient }.

(** The loop of [NewCustomClient]: [baseClient = middleware(baseClient)]
    for each middleware in order. *)
Fixpoint apply_middlewares (baseClient : HTTPClient) (middlewares : list Middleware)
  : HTTPClient :=
  match middlewares with
  | [] => baseClient
  | middleware :: rest => apply_middlewares (middleware baseClient) rest
  end.

(** [NewCustomClient] (main.go, lines 52-58). *)
Definition NewCustomClient (baseClient : HTTPClient) (middlewares : list Middleware)
  : CustomClient :=
  {| httpClient := apply_middlewares baseClient middlewares |}.

(** [http.NewRequestWithContext(ctx, "GET", url, nil)]: the method is
    valid and the context is not nil, so only the URL can be refused. *)
Definition NewRequestWithContext (c : context_Context) (method url : string)
    (body : option ReadCloser) : result Request :=
  match url_Parse url with
  | Err e => Err e
  | Ok u => Ok {| Method := method; req_URL := u; req_Header := ∅;
                  req_Body := body; ctx := c |}
  end.

(** The calls [Get] itself makes, in the order it makes them. *)
Inductive call : Type :=
| call_Do (req : Request)
| call_ReadAll (b : ReadCloser)
| call_Close (b : ReadCloser).

(** State of a run of [Get]: the transports' state and the calls made. *)
Record state : Type := { world : W; calls : list call }.

(** A computation of [Get]. *)
Definition G (A : Type) : Type := state -> outcome A * state.

Definition ret {A} (a : A) : G A := fun s => (Returns a, s).

Definition bind {A B} (m : G A) (k : A -> G B) : G B :=
  fun s =>
    match m s with
    | (Returns a, s') => k a s'
    | (Panics v, s') => (Panics v, s')
    end.

Definition panic {A} (v : string) : G A := fun s => (Panics v, s).

Definition record (c : call) : G unit :=
  fun s => (Returns tt, {| world := world s; calls := calls s ++ [c] |}).

(** Runs a transport computation on the world of the run. *)
Definition lift {A} (t : T A) : G A :=
  fun s =>
    let '(o, w) := t (world s) in (o, {| world := w; calls := calls s |}).

(** [defer d; body]: [d] runs when [body] is left, by return or by panic;
    the results of [body] stand unless [d] itself panics. *)
Definition defer {A} (d : G unit) (body : G A) : G A :=
  fun s =>
    let '(o, s') := body s in
    match d s' with
    | (Returns _, s'') => (o, s'')
    | (Panics v, s'') => (Panics v, s'')
    end.

Notation "'let*' x ':=' m 'in' k" := (bind m (fun x => k))
  (at level 10, x pattern, k at level 200, only parsing).

(** [c.httpClient.Do(req)]. *)
Definition client_Do (c : CustomClient) (req : Request) : G sent :=
  let* _ := record (call_Do req) in lift (Do (httpClient c) req).

(** [resp.Body.Close()]; the error it returns is dropped by [defer]. *)
Definition Body_Close (b : ReadCloser) : G unit := record (call_Close b).

(** [io.ReadAll(resp.Body)]. *)
Definition io_ReadAll (b : ReadCloser) : G (string * option error) :=
  let* _ := record (call_ReadAll b) in ret (ReadAll b).

(** The text of the run-time error raised by a nil dereference. *)
Definition nil_dereference : string :=
  "invalid memory address or nil pointer dereference".

(** [CustomClient.Get] (main.go, lines 61-82). The first result is
    [None] for a nil slice. Evaluating [resp.Body.Close] for the [defer]
    statement panics when [resp] is nil or its [Body] is a nil interface. *)
Definition Get (c : CustomClient) (cx : context_Context) (url : string)
  : G (option string * option error) :=
  match NewRequestWithContext cx "GET" url None with
  | Err err => ret (None, Some (Errorf "failed to create request: " err))
  | Ok req =>
      let* (resp, err) := client_Do c req in
      match err with
      | Some err => ret (None, Some (Errorf "request failed: " err))
      | None =>
          match resp with
          | None => panic nil_dereference
          | Some resp =>
              match resp_Body resp with
              | None => panic nil_dereference
              | Some Body =>
                  defer (Body_Close Body)
                    (let* (body, err) := io_ReadAll Body in
                     match err with
                     | Some err =>
                         ret (None, Some (Errorf "failed to read response body: " err))
                     | None => ret (Some body, None)
                     end)
              end
          end
      end
  end.

(** A run of [Get] from world [w] with no call made yet. *)
Definition run_Get (c : CustomClient) (cx : context_Context) (url : string) (w : W)
  : outcome (option string * option error) * state :=
  Get c cx url {| world := w; calls := [] |}.

(** How often [Get] closed a body stream. *)
Fixpoint closes (cs : list call) : nat :=
  match cs with
  | [] => 0
  | call_Close _ :: cs' => S (closes cs')
  | _ :: cs' => closes cs'
  end.

(** A middleware that only rewrites the request before delegating. *)
Definition decorate (f : Request -> Request) : Middleware :=
  fun client => HTTPClientFunc (fun req => Do client (f req)).


(** Two requests that agree on everything but the Authorization header. *)
Definition same_but_Authorization (req req' : Request) : Prop :=
  Method req' = Method req /\
  req_URL req' = req_URL req /\
  req_Body req' = req_Body req /\
  ctx req' = ctx req /\
  delete "Authorization" (req_Header req') = delete "Authorization" (req_Header req).

End Program.

(* ===================================================================== *)
(** ** The entry point                                                    *)
(* ===================================================================== *)

(** The line feed that [fmt.Println] and the format [\n] write. *)
Definition newline : string := String "010"%char EmptyString.

(** [string(responseBody)]: a nil slice converts to the empty string. *)
Definition string_of_bytes (b : option string) : string :=
  match b with
  | Some s => s
  | None => EmptyString
  end.

Section Callers.

Context {W context_Context URL : Type}.
Variable url_Parse : string -> result URL.

(** The middlewares this program can put in a chain. *)
Inductive auth_middleware : @Middleware W context_Context URL -> Prop :=
| auth_Basic (username password : string) :
    auth_middleware (BasicAuthMiddleware username password)
| auth_APIKey (apiKey : string) :
    auth_middleware (APIKeyAuthMiddleware apiKey).

(** [main] (main.go, lines 84-100). [DefaultClient] is
    [http.DefaultClient] and [Background] the value of
    [context.Background()]. [main] prints once on each path that
    returns, so the text it writes to standard output is given as its
    result: [fmt.Printf("Error: %v\n", err)] writes the text of the
    error, [fmt.Println] the body, each followed by a line feed. *)
Definition main (DefaultClient : @HTTPClient W context_Context URL)
    (Background : context_Context) : @G W context_Context URL string :=
  let apiKey := "your-api-key-here" in
  let apiEndpoint := "https://your-api-endpoint.com" in
  let client := NewCustomClient DefaultClient [APIKeyAuthMiddleware apiKey] in
  bind (Get url_Parse client Background apiEndpoint)
    (fun '(responseBody, err) =>
       match err with
       | Some err => ret ("Error: " ++ Error err ++ newline)
       | None => ret (string_of_bytes responseBody ++ newline)
       end).

(** A run of [main] from world [w]. *)
Definition run_main (DefaultClient : @HTTPClient W context_Context URL)
    (Background : context_Context) (w : W) : outcome string * state :=
  main DefaultClient Background {| world := w; calls := [] |}.

End Callers.

(* ===================================================================== *)
(** ** A mock transport                                                   *)
(* ===================================================================== *)

(** Instances used to run the program on concrete inputs: the world is
    the number of requests sent, a URL is kept as its text and only the
    empty text is refused. *)
Definition mock_Parse (url : string) : result string :=
  match url with
  | EmptyString => Err (errorString 0 "parse: empty url")
  | _ => Ok url
  end.

(** A transport that counts the request and answers with [r]. *)
Definition mock (r : option Response * option error)
  : @HTTPClient nat unit string :=
  {| Do := fun _ n => (Returns r, S n) |}.

Definition hello_response : Response :=
  {| StatusCode := 200; resp_Header := ∅;
     resp_Body := Some (Read_more "hel" (Read_stop "lo" EOF)) |}.

Definition torn_response : Response :=
  {| StatusCode := 200; resp_Header := ∅;
     resp_Body := Some (Read_more "hel"
                          (Read_stop "" (errorString 2 "unexpected EOF"))) |}.

Definition refused : error := errorString 1 "connection refused".

(** A server error that carries the same body as [hello_response]. *)
Definition error_page : Response :=
  {| StatusCode := 500; resp_Header := {["Retry-After" := ["120"]]};
     resp_Body := Some (Read_more "hel" (Read_stop "lo" EOF)) |}.

(** A response without a body stream. *)
Definition bodiless_response : Response :=
  {| StatusCode := 204; resp_Header := ∅; resp_Body := None |}.

(** A transport that panics on every request. *)
Definition broken : @HTTPClient nat unit string :=
  {| Do := fun _ n => (Panics "transport: broken pipe", n) |}.

Definition mock_request : @Request unit string :=
  {| Method := "GET"; req_URL := "http://example.test"; req_Header := ∅;
     req_Body := None; ctx := tt |}.

(* ===================================================================== *)
(** ** Facts about encoding/base64                                        *)
(* ===================================================================== *)

Ltac Zify.zify_post_hook ::= Z.to_euclidean_division_equations.

(** Or-ing a value below [2^k] onto a multiple of [2^k] adds it. *)
Lemma lor_mul_pow2_add (c b k : N) :
  (b < 2 ^ k)%N -> N.lor (c * 2 ^ k) b = (c * 2 ^ k + b)%N.
Proof.
  intros Hb.
  rewrite <- N.lxor_lor, <- N.add_nocarry_lxor; trivial.
  all: apply N.bits_inj; intros i; rewrite N.land_spec, N.bits_0.
  all: destruct (N.lt_ge_cases i k) as [Hi|Hi].
  all: try (rewrite N.mul_pow2_bits_low by assumption; reflexivity).
  all: rewrite <- (N.mod_small b (2 ^ k)) by assumption.
  all: rewrite N.mod_pow2_bits_high by assumption; apply andb_false_r.
Qed.

(** The same for any value whose low [k] bits are clear. *)
Lemma lor_disjoint_add (a b k : N) :
  (a mod 2 ^ k = 0)%N -> (b < 2 ^ k)%N -> N.lor a b = (a + b)%N.
Proof.
  intros Ha Hb.
  assert (E : a = (a / 2 ^ k * 2 ^ k)%N).
  { rewrite (N.div_mod a (2 ^ k)) at 1 by (apply N.pow_nonzero; discriminate).
    rewrite Ha, N.add_0_r. apply N.mul_comm. }
  rewrite E. apply lor_mul_pow2_add, Hb.
Qed.

Lemma land_63 (x : N) : N.land x 63 = (x mod 64)%N.
Proof. change 63%N with (N.ones 6). apply N.land_ones. Qed.

Lemma land_255 (x : N) : N.land x 255 = (x mod 256)%N.
Proof. change 255%N with (N.ones 8). apply N.land_ones. Qed.

(** Every index below 64 is one of the 64 listed ones. *)
Lemma below_64 (P : N -> bool) :
  forallb P (map N.of_nat (seq 0 64)) = true ->
  forall i, (i < 64)%N -> P i = true.
Proof.
  intros H i Hi. rewrite forallb_forall in H. apply H.
  rewrite <- (N2Nat.id i). apply in_map, in_seq. lia.
Qed.

Lemma decodeMap_encode (i : N) :
  (i < 64)%N -> Base64.decodeMap (Base64.encode i) = i.
Proof.
  intros Hi.
  apply N.eqb_eq.
  revert i Hi.
  apply (below_64 (fun i => N.eqb (Base64.decodeMap (Base64.encode i)) i)).
  vm_compute. reflexivity.
Qed.

Lemma valid_encode (i : N) : (i < 64)%N -> Base64.valid (Base64.encode i) = true.
Proof.
  intros Hi. unfold Base64.valid. rewrite decodeMap_encode by assumption.
  apply negb_true_iff, N.eqb_neq. lia.
Qed.

Lemma encode_not_newline (i : N) :
  (i < 64)%N -> Base64.is_newline (Base64.encode i) = false.
Proof.
  intros Hi. apply negb_true_iff. revert i Hi.
  apply (below_64 (fun i => negb (Base64.is_newline (Base64.encode i)))).
  vm_compute. reflexivity.
Qed.

Lemma sextet_index (val sh : N) : (N.land (N.shiftr val sh) 63 < 64)%N.
Proof. rewrite land_63. apply N.mod_lt. discriminate. Qed.

Lemma valid_sextet (val sh : N) : Base64.valid (Base64.sextet val sh) = true.
Proof. apply valid_encode, sextet_index. Qed.

Lemma valid_low (val : N) : Base64.valid (Base64.encode (N.land val 63)) = true.
Proof. apply valid_encode. rewrite land_63. apply N.mod_lt. discriminate. Qed.

Lemma decodeMap_sextet (val sh : N) :
  Base64.decodeMap (Base64.sextet val sh) = ((val / 2 ^ sh) mod 64)%N.
Proof.
  unfold Base64.sextet. rewrite decodeMap_encode by apply sextet_index.
  rewrite land_63, N.shiftr_div_pow2. reflexivity.
Qed.

Lemma decodeMap_low (val : N) :
  Base64.decodeMap (Base64.encode (N.land val 63)) = (val mod 64)%N.
Proof.
  rewrite decodeMap_encode; rewrite land_63; trivial.
  apply N.mod_lt. discriminate.
Qed.

(** The value [decodeQuantum] assembles, as a sum. *)
Lemma quantum_sum (d0 d1 d2 d3 : N) :
  (d1 < 64)%N -> (d2 < 64)%N -> (d3 < 64)%N ->
  Base64.quantum d0 d1 d2 d3 = (d0 * 262144 + d1 * 4096 + d2 * 64 + d3)%N.
Proof.
  intros H1 H2 H3. unfold Base64.quantum.
  rewrite !N.shiftl_mul_pow2.
  change (2 ^ 18)%N with 262144%N.
  change (2 ^ 12)%N with 4096%N.
  change (2 ^ 6)%N with 64%N.
  rewrite (lor_disjoint_add (d0 * 262144) (d1 * 4096) 18)
    by (change (2 ^ 18)%N with 262144%N; lia).
  rewrite (lor_disjoint_add _ (d2 * 64) 12)
    by (change (2 ^ 12)%N with 4096%N; lia).
  rewrite (lor_disjoint_add _ d3 6)
    by (change (2 ^ 6)%N with 64%N; lia).
  reflexivity.
Qed.

(** The value [Encode] assembles from three bytes, as a sum. *)
Lemma group_sum (b0 b1 b2 : ascii) :
  Base64.group b0 b1 b2 =
  (N_of_ascii b0 * 65536 + N_of_ascii b1 * 256 + N_of_ascii b2)%N.
Proof.
  pose proof (N_ascii_bounded b1). pose proof (N_ascii_bounded b2).
  unfold Base64.group. rewrite !N.shiftl_mul_pow2.
  change (2 ^ 16)%N with 65536%N. change (2 ^ 8)%N with 256%N.
  rewrite (lor_disjoint_add (N_of_ascii b0 * 65536) _ 16)
    by (change (2 ^ 16)%N with 65536%N; lia).
  rewrite (lor_disjoint_add _ (N_of_ascii b2) 8)
    by (change (2 ^ 8)%N with 256%N; lia).
  reflexivity.
Qed.

Lemma byte_of (x : N) (b : ascii) :
  (x mod 256 = N_of_ascii b)%N -> Base64.byte x = b.
Proof.
  intros H. unfold Base64.byte. rewrite land_255, H. apply ascii_N_embedding.
Qed.

Ltac pow2_numerals :=
  change (2 ^ 18)%N with 262144%N in *;
  change (2 ^ 16)%N with 65536%N in *;
  change (2 ^ 12)%N with 4096%N in *;
  change (2 ^ 8)%N with 256%N in *;
  change (2 ^ 6)%N with 64%N in *.

(** Decoding the four characters of a full group gives its three bytes. *)
Lemma quantum_group (b0 b1 b2 : ascii) :
  let val := Base64.group b0 b1 b2 in
  let q := Base64.quantum (Base64.decodeMap (Base64.sextet val 18))
                          (Base64.decodeMap (Base64.sextet val 12))
                          (Base64.decodeMap (Base64.sextet val 6))
                          (Base64.decodeMap (Base64.encode (N.land val 63))) in
  Base64.byte (N.shiftr q 16) = b0 /\
  Base64.byte (N.shiftr q 8) = b1 /\
  Base64.byte q = b2.
Proof.
  intros val q. subst q.
  rewrite !decodeMap_sextet, decodeMap_low.
  rewrite quantum_sum by (apply N.mod_lt; discriminate).
  subst val. rewrite group_sum.
  pose proof (N_ascii_bounded b0). pose proof (N_ascii_bounded b1).
  pose proof (N_ascii_bounded b2).
  repeat split; apply byte_of; rewrite ?N.shiftr_div_pow2; pow2_numerals; lia.
Qed.

(** Decoding the padded form of a final group of two bytes. *)
Lemma quantum_pair (b0 b1 : ascii) :
  let val := N.lor (N.shiftl (N_of_ascii b0) 16) (N.shiftl (N_of_ascii b1) 8) in
  let q := Base64.quantum (Base64.decodeMap (Base64.sextet val 18))
                          (Base64.decodeMap (Base64.sextet val 12))
                          (Base64.decodeMap (Base64.sextet val 6)) 0 in
  Base64.byte (N.shiftr q 16) = b0 /\ Base64.byte (N.shiftr q 8) = b1.
Proof.
  intros val q. subst q.
  rewrite !decodeMap_sextet.
  rewrite quantum_sum by (try (apply N.mod_lt; discriminate); reflexivity).
  pose proof (N_ascii_bounded b0). pose proof (N_ascii_bounded b1).
  assert (E : val = (N_of_ascii b0 * 65536 + N_of_ascii b1 * 256)%N).
  { subst val. rewrite !N.shiftl_mul_pow2. pow2_numerals.
    apply (lor_disjoint_add _ _ 16); pow2_numerals; lia. }
  rewrite E.
  split; apply byte_of; rewrite ?N.shiftr_div_pow2; pow2_numerals; lia.
Qed.

(** Decoding the padded form of a final group of one byte. *)
Lemma quantum_single (b0 : ascii) :
  let val := N.shiftl (N_of_ascii b0) 16 in
  let q := Base64.quantum (Base64.decodeMap (Base64.sextet val 18))
                          (Base64.decodeMap (Base64.sextet val 12)) 0 0 in
  Base64.byte (N.shiftr q 16) = b0.
Proof.
  intros val q. subst q.
  rewrite !decodeMap_sextet.
  rewrite quantum_sum by (try (apply N.mod_lt; discriminate); reflexivity).
  pose proof (N_ascii_bounded b0).
  subst val. rewrite N.shiftl_mul_pow2.
  apply byte_of; rewrite ?N.shiftr_div_pow2; pow2_numerals; lia.
Qed.

(** Induction over a string three bytes at a time, as [Encode] reads it. *)
Lemma string_groups_ind (P : string -> Prop) :
  P EmptyString ->
  (forall b0, P (String b0 EmptyString)) ->
  (forall b0 b1, P (String b0 (String b1 EmptyString))) ->
  (forall b0 b1 b2 rest, P rest -> P (String b0 (String b1 (String b2 rest)))) ->
  forall s, P s.
Proof.
  intros H0 H1 H2 H3 s.
  enough (P s /\ (forall a, P (String a s)) /\ (forall a b, P (String a (String b s))))
    by tauto.
  induction s as [|c s (IH0 & IH1 & IH2)]; auto.
Qed.

(** The encoder's output holds no carriage return or line feed. *)
Lemma strip_newlines_EncodeToString (src : string) :
  Base64.strip_newlines (Base64.EncodeToString src) = Base64.EncodeToString src.
Proof.
  induction src as [|b0|b0 b1|b0 b1 b2 rest IH] using string_groups_ind;
    cbn [Base64.EncodeToString Base64.strip_newlines]; trivial.
  all: unfold Base64.sextet;
       rewrite ?encode_not_newline
         by (try apply sextet_index; rewrite land_63; apply N.mod_lt; discriminate).
  all: cbn [Base64.strip_newlines]; try reflexivity.
  rewrite IH. reflexivity.
Qed.

Lemma decode_quanta_EncodeToString (src : string) :
  Base64.decode_quanta (Base64.EncodeToString src) = Some src.
Proof.
  induction src as [|b0|b0 b1|b0 b1 b2 rest IH] using string_groups_ind;
    cbn [Base64.EncodeToString Base64.decode_quanta].
  - reflexivity.
  - rewrite !valid_sextet. cbn [andb].
    change (Base64.valid Base64.padChar) with false.
    change (Ascii.eqb Base64.padChar Base64.padChar) with true. cbn [andb].
    rewrite (quantum_single b0). reflexivity.
  - rewrite !valid_sextet. cbn [andb].
    change (Base64.valid Base64.padChar) with false.
    change (Ascii.eqb Base64.padChar Base64.padChar) with true.
    destruct (quantum_pair b0 b1) as [E0 E1]. rewrite E0, E1. reflexivity.
  - rewrite !valid_sextet, valid_low. cbn [andb]. rewrite IH.
    destruct (quantum_group b0 b1 b2) as (E0 & E1 & E2).
    rewrite E0, E1, E2. reflexivity.
Qed.

(** [DecodeString] inverts [EncodeToString] on every byte string. *)
Lemma DecodeString_EncodeToString (src : string) :
  Base64.DecodeString (Base64.EncodeToString src) = Some src.
Proof.
  unfold Base64.DecodeString.
  rewrite strip_newlines_EncodeToString. apply decode_quanta_EncodeToString.
Qed.

(* ===================================================================== *)
(** ** Facts about the standard-library helpers                           *)
(* ===================================================================== *)

Lemma Canonical_Authorization :
  CanonicalMIMEHeaderKey "Authorization" = "Authorization".
Proof. reflexivity. Qed.

Lemma Header_Set_Authorization (value : string) (h : Header) :
  Header_Set "Authorization" value h !! "Authorization" = Some [value].
Proof. unfold Header_Set. rewrite Canonical_Authorization. apply lookup_insert_eq. Qed.

Lemma Header_Set_other (value key : string) (h : Header) :
  key <> "Authorization" -> Header_Set "Authorization" value h !! key = h !! key.
Proof.
  intros Hne. unfold Header_Set. rewrite Canonical_Authorization.
  apply lookup_insert_ne. congruence.
Qed.

Lemma Header_Get_Set_Authorization (value : string) (h : Header) :
  Header_Get "Authorization" (Header_Set "Authorization" value h) = value.
Proof.
  unfold Header_Get. rewrite Canonical_Authorization.
  change (Header_Set "Authorization" value h !! "Authorization")
    with (Header_Set "Authorization" value h !! "Authorization").
  rewrite Header_Set_Authorization. reflexivity.
Qed.

Lemma append_cons (c : ascii) (p s : string) :
  String c p ++ s = String c (p ++ s).
Proof. reflexivity. Qed.

Lemma append_assoc (p q s : string) : (p ++ q) ++ s = p ++ (q ++ s).
Proof.
  induction p as [|c p IH]; [reflexivity|].
  rewrite !append_cons, IH. reflexivity.
Qed.

Lemma prefix_app (p s : string) : String.prefix p (p ++ s) = true.
Proof.
  induction p as [|c p IH].
  - destruct s; reflexivity.
  - rewrite append_cons. simpl.
    destruct (ascii_dec c c); [apply IH | congruence].
Qed.

Lemma Contains_prefix (p s : string) : Contains (p ++ s) p = true.
Proof.
  assert (E : forall t, Contains t p = String.prefix p t || Contains t p).
  { intros [|c t]; cbn [Contains];
      [generalize (String.prefix p EmptyString)
      |generalize (String.prefix p (String c t))];
      intros []; reflexivity. }
  rewrite E, prefix_app. reflexivity.
Qed.

(** A string that starts with [p ++ sep] contains [p]. *)
Lemma Contains_Errorf (p sep s : string) : Contains ((p ++ sep) ++ s) p = true.
Proof.
  rewrite append_assoc. apply Contains_prefix.
Qed.

(** Cutting [username:password] at the first colon gives the pair back
    when the user name holds no colon. *)
Lemma Cut_colon_pair (username password : string) :
  no_colon username ->
  Cut_colon (username ++ ":" ++ password) = Some (username, password).
Proof.
  unfold no_colon.
  induction username as [|c u IH]; intros H; [reflexivity|].
  rewrite append_cons. cbn [Cut_colon]. cbn [all_bytes] in H.
  apply andb_true_iff in H as [Hc Hu].
  apply negb_true_iff in Hc. rewrite Hc, (IH Hu). reflexivity.
Qed.

Lemma substring_all (s : string) : String.substring 0 (String.length s) s = s.
Proof. induction s as [|c s IH]; cbn; [reflexivity | now rewrite IH]. Qed.

(** [parseBasicAuth] strips the scheme and decodes the rest. *)
Lemma parseBasicAuth_Basic (token : string) :
  parseBasicAuth ("Basic " ++ token) =
  match Base64.DecodeString token with
  | Some cs => Cut_colon cs
  | None => None
  end.
Proof.
  change ("Basic " ++ token)
    with (String "B" (String "a" (String "s" (String "i" (String "c"
           (String " " token)))))).
  unfold parseBasicAuth.
  cbn [String.length Nat.ltb Nat.leb Nat.sub substring orb].
  assert (E : EqualFold "Basic " "Basic " = true) by reflexivity.
  assert (E0 : substring 0 0 token = EmptyString) by (destruct token; reflexivity).
  rewrite E0, E, Nat.sub_0_r. cbn [negb]. rewrite substring_all. reflexivity.
Qed.

Lemma parseBasicAuth_basicAuth (username password : string) :
  parseBasicAuth ("Basic " ++ basicAuth username password) =
  Cut_colon (username ++ ":" ++ password).
Proof.
  rewrite parseBasicAuth_Basic. unfold basicAuth.
  rewrite DecodeString_EncodeToString. reflexivity.
Qed.

(* ===================================================================== *)
(** ** Facts about io.ReadAll and the runs of Get                         *)
(* ===================================================================== *)

(** [io.ReadAll] returns every byte delivered, and a nil error exactly
    when the stream ends with [io.EOF]. *)
Lemma ReadAll_spec (r : ReadCloser) :
  ReadAll r = (delivered r, nil_if_EOF (final_error r)).
Proof.
  induction r as [p next IH|p err]; cbn [ReadAll delivered final_error].
  - rewrite IH. reflexivity.
  - reflexivity.
Qed.

Lemma ReadAll_EOF (r : ReadCloser) :
  final_error r = EOF -> ReadAll r = (delivered r, None).
Proof. intros H. rewrite ReadAll_spec, H. reflexivity. Qed.

Lemma ReadAll_failed (r : ReadCloser) :
  final_error r <> EOF -> ReadAll r = (delivered r, Some (final_error r)).
Proof. intros H. rewrite ReadAll_spec. destruct (final_error r); cbn; congruence. Qed.

(** A URL that parses gives a GET-style request with no header yet. *)
Lemma NewRequestWithContext_parsed {context_Context URL : Type}
    (url_Parse : string -> result URL) (cx : context_Context)
    (method url : string) (body : option ReadCloser) (u : URL) :
  url_Parse url = Ok u ->
  NewRequestWithContext url_Parse cx method url body =
  Ok {| Method := method; req_URL := u; req_Header := ∅; req_Body := body;
        ctx := cx |}.
Proof. intros H. unfold NewRequestWithContext. rewrite H. reflexivity. Qed.

Section Properties.

Context {W context_Context URL : Type}.
Variable url_Parse : string -> result URL.

Local Abbreviation Request := (@Request context_Context URL).
Local Abbreviation HTTPClient := (@HTTPClient W context_Context URL).
Local Abbreviation Middleware := (@Middleware W context_Context URL).
Local Abbreviation CustomClient := (@CustomClient W context_Context URL).
Local Abbreviation G := (@G W context_Context URL).
Local Abbreviation state := (@state W context_Context URL).
Local Abbreviation NewRequestWithContext := (NewRequestWithContext url_Parse).
Local Abbreviation run_Get := (run_Get url_Parse).

(** A deferred [Close] runs once, after the calls of the body, whether
    the body returns or panics, and leaves its outcome alone. *)
Lemma defer_Body_Close {A} (b : ReadCloser) (body : G A) (s : state) :
  defer (Body_Close b) body s =
  (fst (body s),
   {| world := world (snd (body s));
      calls := calls (snd (body s)) ++ [call_Close b] |}).
Proof. unfold defer, Body_Close, record. destruct (body s) as [o s']. reflexivity. Qed.

(** What a run of [Get] does once the request is built, by the outcome
    of the transport. *)
Lemma run_Get_built (c : CustomClient) (cx : context_Context) (url : string)
    (w w' : W) (req : Request) (o : outcome sent) :
  NewRequestWithContext cx "GET" url None = Ok req ->
  Do (httpClient c) req w = (o, w') ->
  run_Get c cx url w =
  match o with
  | Panics v => (Panics v, {| world := w'; calls := [call_Do req] |})
  | Returns (_, Some err) =>
      (Returns (None, Some (Errorf "request failed: " err)),
       {| world := w'; calls := [call_Do req] |})
  | Returns (None, None) =>
      (Panics nil_dereference, {| world := w'; calls := [call_Do req] |})
  | Returns (Some resp, None) =>
      match resp_Body resp with
      | None => (Panics nil_dereference, {| world := w'; calls := [call_Do req] |})
      | Some b =>
          (match ReadAll b with
           | (_, Some err) =>
               Returns (None, Some (Errorf "failed to read response body: " err))
           | (body, None) => Returns (Some body, None)
           end,
           {| world := w'; calls := [call_Do req; call_ReadAll b; call_Close b] |})
      end
  end.
Proof.
  intros Hreq HDo. unfold run_Get, Get. rewrite Hreq.
  unfold client_Do, bind at 1, record, lift, bind. cbn [world calls app].
  rewrite HDo.
  destruct o as [[[resp|] [err|]]|v]; try reflexivity.
  destruct (resp_Body resp) as [b|]; try reflexivity.
  rewrite defer_Body_Close.
  unfold io_ReadAll, bind, record, ret. cbn [world calls app fst snd].
  destruct (ReadAll b) as [body [err|]]; reflexivity.
Qed.

(** A malformed URL ends [Get] before any call is made. *)
Lemma run_Get_not_built (c : CustomClient) (cx : context_Context) (url : string)
    (w : W) (err : error) :
  NewRequestWithContext cx "GET" url None = Err err ->
  run_Get c cx url w =
  (Returns (None, Some (Errorf "failed to create request: " err)),
   {| world := w; calls := [] |}).
Proof. intros H. unfold run_Get, Get. rewrite H. reflexivity. Qed.

(* ===================================================================== *)
(** ** Middleware composition                                             *)
(* ===================================================================== *)

Lemma apply_middlewares_snoc (base : HTTPClient) (ms : list Middleware) (m : Middleware) :
  apply_middlewares base (ms ++ [m]) = m (apply_middlewares base ms).
Proof.
  revert base. induction ms as [|m0 ms IH]; intros base; cbn [apply_middlewares app].
  - reflexivity.
  - apply IH.
Qed.

Lemma apply_middlewares_fold_left (base : HTTPClient) (ms : list Middleware) :
  apply_middlewares base ms = fold_left (fun t m => m t) ms base.
Proof.
  revert base. induction ms as [|m0 ms IH]; intros base; cbn [apply_middlewares fold_left].
  - reflexivity.
  - apply IH.
Qed.

(** Through a chain of request decorators the base transport receives
    the request rewritten by the last-listed decorator first and by the
    first-listed one last. *)
Lemma apply_decorators (base : HTTPClient) (fs : list (Request -> Request))
    (req : Request) (w : W) :
  Do (apply_middlewares base (map decorate fs)) req w =
  Do base (fold_right (fun f r => f r) req fs) w.
Proof.
  revert base req. induction fs as [|f fs IH]; intros base req.
  - reflexivity.
  - cbn [map apply_middlewares fold_right]. rewrite IH. reflexivity.
Qed.

(** Both middlewares of the program are such decorators. *)
Lemma BasicAuthMiddleware_decorate (username password : string) :
  BasicAuthMiddleware username password =
  decorate (W:=W) (SetBasicAuth (context_Context:=context_Context) (URL:=URL)
                     username password).
Proof. reflexivity. Qed.

Lemma APIKeyAuthMiddleware_decorate (apiKey : string) :
  APIKeyAuthMiddleware apiKey =
  decorate (W:=W) (set_Header (context_Context:=context_Context) (URL:=URL)
                     "Authorization" ("Bearer " ++ apiKey)).
Proof. reflexivity. Qed.

(** C1. For every base transport and every list of middlewares,
    [NewCustomClient] holds the left fold of the list over the base: a
    middleware appended to the list wraps everything listed before it.
    On a request the mutation of the last-listed middleware therefore
    runs first and those of earlier-listed ones after it, so that the
    first-listed middleware's value of a header both set is the one the
    base transport receives. *)
Theorem NewCustomClient_folds_left (base : HTTPClient) (ms : list Middleware) :
  httpClient (NewCustomClient base ms) = fold_left (fun t m => m t) ms base /\
  (forall m : Middleware,
     httpClient (NewCustomClient base (ms ++ [m])) =
     m (httpClient (NewCustomClient base ms))) /\
  (forall (fs : list (Request -> Request)) (req : Request) (w : W),
     Do (httpClient (NewCustomClient base (map decorate fs))) req w =
     Do base (fold_right (fun f r => f r) req fs) w) /\
  (forall (apiKey : string) (fs : list (Request -> Request)) (req : Request) (w : W),
     exists req' : Request,
       Do (httpClient (NewCustomClient base
             (APIKeyAuthMiddleware apiKey :: map decorate fs))) req w =
       Do base req' w /\
       Header_Get "Authorization" (req_Header req') = "Bearer " ++ apiKey).
Proof.
  unfold NewCustomClient; cbn [httpClient]. repeat split.
  - apply apply_middlewares_fold_left.
  - intros m. apply apply_middlewares_snoc.
  - intros fs req w. apply apply_decorators.
  - intros apiKey fs req w.
    exists (set_Header "Authorization" ("Bearer " ++ apiKey)
              (fold_right (fun f r => f r) req fs)).
    split.
    + apply (apply_decorators base
               (set_Header "Authorization" ("Bearer " ++ apiKey) :: fs)).
    + apply Header_Get_Set_Authorization.
Qed.

(* ===================================================================== *)
(** ** The two middlewares                                                *)
(* ===================================================================== *)

Lemma SetBasicAuth_frame (username password : string) (req : Request) :
  same_but_Authorization req (SetBasicAuth username password req).
Proof.
  unfold same_but_Authorization, SetBasicAuth, Header_Set; cbn.
  repeat split. rewrite Canonical_Authorization. apply delete_insert_eq.
Qed.

Lemma set_Header_frame (value : string) (req : Request) :
  same_but_Authorization req (set_Header "Authorization" value req).
Proof.
  unfold same_but_Authorization, set_Header, Header_Set; cbn.
  repeat split. rewrite Canonical_Authorization. apply delete_insert_eq.
Qed.

(** C2, as amended. For every password and every user name without a
    colon, the transport of [BasicAuthMiddleware] hands on the request
    with its Authorization header set to exactly [Basic ] followed by the
    base64 text of [username:password], and decoding that header value
    gives back the pair. *)
Theorem BasicAuthMiddleware_header_decodes (username password : string)
    (req : Request) :
  no_colon username ->
  exists req' : Request,
    (forall (client : HTTPClient) (w : W),
       Do (BasicAuthMiddleware username password client) req w = Do client req' w) /\
    req_Header req' !! "Authorization" =
      Some ["Basic " ++ Base64.EncodeToString (username ++ ":" ++ password)] /\
    Header_Get "Authorization" (req_Header req') =
      "Basic " ++ Base64.EncodeToString (username ++ ":" ++ password) /\
    parseBasicAuth (Header_Get "Authorization" (req_Header req')) =
      Some (username, password).
Proof.
  intros Hu. exists (SetBasicAuth username password req).
  unfold SetBasicAuth; cbn [req_Header].
  rewrite Header_Get_Set_Authorization, Header_Set_Authorization.
  repeat split.
  fold (basicAuth username password).
  rewrite parseBasicAuth_basicAuth. apply Cut_colon_pair, Hu.
Qed.

(** C3. For every key and every request, the transport of
    [APIKeyAuthMiddleware] hands on the request with its Authorization
    header set to the single value [Bearer ] followed by the key: seven
    bytes precede the key and none follows it. *)
Theorem APIKeyAuthMiddleware_sets_Bearer (apiKey : string) (req : Request) :
  exists req' : Request,
    (forall (client : HTTPClient) (w : W),
       Do (APIKeyAuthMiddleware apiKey client) req w = Do client req' w) /\
    req_Header req' !! "Authorization" = Some ["Bearer " ++ apiKey] /\
    Header_Get "Authorization" (req_Header req') = "Bearer " ++ apiKey /\
    String.length (Header_Get "Authorization" (req_Header req')) =
      7 + String.length apiKey.
Proof.
  exists (set_Header "Authorization" ("Bearer " ++ apiKey) req).
  unfold set_Header; cbn [req_Header].
  rewrite Header_Get_Set_Authorization, Header_Set_Authorization.
  repeat split.
Qed.

(** C7. For every request, the transport of either middleware hands to
    the inner transport a request that differs from the one it received
    in the Authorization header only (method, URL, body, context and
    every other header are the same), and its own result is the inner
    transport's result on that request, unchanged. *)
Theorem auth_middlewares_frame (username password apiKey : string) (req : Request) :
  (exists req' : Request,
     same_but_Authorization req req' /\
     forall (client : HTTPClient) (w : W),
       Do (BasicAuthMiddleware username password client) req w = Do client req' w) /\
  (exists req' : Request,
     same_but_Authorization req req' /\
     forall (client : HTTPClient) (w : W),
       Do (APIKeyAuthMiddleware apiKey client) req w = Do client req' w).
Proof.
  split.
  - exists (SetBasicAuth username password req). split.
    + apply SetBasicAuth_frame.
    + reflexivity.
  - exists (set_Header "Authorization" ("Bearer " ++ apiKey) req). split.
    + apply set_Header_frame.
    + reflexivity.
Qed.

(* ===================================================================== *)
(** ** The operation Get                                                  *)
(* ===================================================================== *)

(** C4. When the URL is well formed, the transport answers the request
    with a nil error and the response body can be read to its end, [Get]
    returns exactly the bytes the body delivers and a nil error. *)
Theorem Get_returns_body (c : CustomClient) (cx : context_Context) (url : string)
    (w w' : W) (req : Request) (resp : Response) (b : ReadCloser) :
  NewRequestWithContext cx "GET" url None = Ok req ->
  Do (httpClient c) req w = (Returns (Some resp, None), w') ->
  resp_Body resp = Some b ->
  final_error b = EOF ->
  run_Get c cx url w =
  (Returns (Some (delivered b), None),
   {| world := w'; calls := [call_Do req; call_ReadAll b; call_Close b] |}).
Proof.
  intros Hreq HDo Hb Heof.
  rewrite (run_Get_built c cx url w w' req _ Hreq HDo), Hb.
  rewrite (ReadAll_EOF b Heof). reflexivity.
Qed.

(** C5. When the transport answers the request with a non-nil error,
    [Get] returns nil bytes and an error whose text starts with
    [request failed: ], continues with the text of the transport's error
    and so contains [request failed], and which unwraps to the
    transport's error itself. *)
Theorem Get_wraps_transport_error (c : CustomClient) (cx : context_Context)
    (url : string) (w w' : W) (req : Request) (resp : option Response)
    (err : error) :
  NewRequestWithContext cx "GET" url None = Ok req ->
  Do (httpClient c) req w = (Returns (resp, Some err), w') ->
  exists e : error,
    run_Get c cx url w =
      (Returns (None, Some e), {| world := w'; calls := [call_Do req] |}) /\
    Error e = "request failed: " ++ Error err /\
    Contains (Error e) "request failed" = true /\
    Unwrap e = Some err.
Proof.
  intros Hreq HDo. exists (Errorf "request failed: " err).
  rewrite (run_Get_built c cx url w w' req _ Hreq HDo).
  split; [destruct resp; reflexivity|].
  split; [reflexivity|]. split; [|reflexivity].
  apply (Contains_Errorf "request failed" ": " (Error err)).
Qed.

(** C6. The client built from a base transport and no middleware holds
    the base transport itself, so sending through it is sending through
    the base; its [Get] calls [Do] once, on the request it built, and
    leaves the transports' state as that one call of the base leaves it. *)
Theorem no_middleware_is_base (base : HTTPClient) (cx : context_Context)
    (url : string) (w : W) (req : Request) :
  NewRequestWithContext cx "GET" url None = Ok req ->
  httpClient (NewCustomClient base []) = base /\
  (forall (r : Request) (w0 : W),
     Do (httpClient (NewCustomClient base [])) r w0 = Do base r w0) /\
  exists cs : list call,
    calls (snd (run_Get (NewCustomClient base []) cx url w)) = call_Do req :: cs /\
    Forall (fun k => match k with call_Do _ => False | _ => True end) cs /\
    world (snd (run_Get (NewCustomClient base []) cx url w)) = snd (Do base req w).
Proof.
  intros Hreq. split; [reflexivity|]. split; [reflexivity|].
  destruct (Do base req w) as [o w'] eqn:HDo.
  rewrite (run_Get_built (NewCustomClient base []) cx url w w' req o Hreq HDo).
  destruct o as [[[resp|] [err|]]|v]; cbn [snd calls world];
    try (exists []; repeat split; constructor).
  destruct (resp_Body resp) as [b|]; cbn [snd calls world].
  - exists [call_ReadAll b; call_Close b]. repeat split. repeat constructor.
  - exists []. repeat split. constructor.
Qed.

(** C8. When the transport answers with a nil error and the response
    body stops with an error other than [io.EOF], [Get] returns nil
    bytes, whatever the body had delivered before, and an error whose
    text names the read stage and which unwraps to the stream's error. *)
Theorem Get_read_failure_returns_nil (c : CustomClient) (cx : context_Context)
    (url : string) (w w' : W) (req : Request) (resp : Response) (b : ReadCloser) :
  NewRequestWithContext cx "GET" url None = Ok req ->
  Do (httpClient c) req w = (Returns (Some resp, None), w') ->
  resp_Body resp = Some b ->
  final_error b <> EOF ->
  exists e : error,
    run_Get c cx url w =
      (Returns (None, Some e),
       {| world := w'; calls := [call_Do req; call_ReadAll b; call_Close b] |}) /\
    Error e = "failed to read response body: " ++ Error (final_error b) /\
    Contains (Error e) "failed to read response body" = true /\
    Unwrap e = Some (final_error b).
Proof.
  intros Hreq HDo Hb Herr.
  exists (Errorf "failed to read response body: " (final_error b)).
  rewrite (run_Get_built c cx url w w' req _ Hreq HDo), Hb.
  rewrite (ReadAll_failed b Herr).
  split; [reflexivity|]. split; [reflexivity|]. split; [|reflexivity].
  apply (Contains_Errorf "failed to read response body" ": ").
Qed.

(** C9, as amended. When the transport answers with a nil error and a
    non-nil response whose [Body] is not nil, the run of [Get] closes
    that stream exactly once, as its last call, whether reading the body
    succeeded or failed. The close is deferred: it follows whatever the
    code after the [defer] statement does, a panic included, and leaves
    the outcome of that code as it is. *)
Theorem Get_closes_body_once (c : CustomClient) (cx : context_Context)
    (url : string) (w w' : W) (req : Request) (resp : Response) (b : ReadCloser) :
  NewRequestWithContext cx "GET" url None = Ok req ->
  Do (httpClient c) req w = (Returns (Some resp, None), w') ->
  resp_Body resp = Some b ->
  closes (calls (snd (run_Get c cx url w))) = 1 /\
  last (calls (snd (run_Get c cx url w))) = Some (call_Close b) /\
  forall (A : Type) (rest : G A) (s : state),
    fst (defer (Body_Close b) rest s) = fst (rest s) /\
    calls (snd (defer (Body_Close b) rest s)) =
      (calls (snd (rest s)) ++ [call_Close b])%list.
Proof.
  intros Hreq HDo Hb.
  rewrite (run_Get_built c cx url w w' req _ Hreq HDo), Hb.
  cbn [fst snd calls]. split; [reflexivity|]. split; [reflexivity|].
  intros A rest s. rewrite defer_Body_Close. split; reflexivity.
Qed.

(** C10. When the transport answers the request with a nil response and
    a nil error, [Get] does not return: it panics with a nil dereference
    right after the call of [Do], before any read or close. *)
Theorem Get_panics_on_nil_response (c : CustomClient) (cx : context_Context)
    (url : string) (w w' : W) (req : Request) :
  NewRequestWithContext cx "GET" url None = Ok req ->
  Do (httpClient c) req w = (Returns (None, None), w') ->
  run_Get c cx url w =
  (Panics nil_dereference, {| world := w'; calls := [call_Do req] |}).
Proof.
  intros Hreq HDo.
  rewrite (run_Get_built c cx url w w' req _ Hreq HDo). reflexivity.
Qed.

(** For body streams as modelled here, whose reads and close neither
    panic nor go on for ever, a panic of [Get] comes from the transport:
    one that panics itself, or one that answers a nil error with a nil
    response or with a response whose body is nil. *)
Lemma Get_panic_sources (c : CustomClient) (cx : context_Context)
    (url : string) (w : W) (v : string) (st : state) :
  run_Get c cx url w = (Panics v, st) ->
  exists (req : Request),
    NewRequestWithContext cx "GET" url None = Ok req /\
    (fst (Do (httpClient c) req w) = Panics v \/
     fst (Do (httpClient c) req w) = Returns (None, None) \/
     exists resp, fst (Do (httpClient c) req w) = Returns (Some resp, None) /\
                  resp_Body resp = None).
Proof.
  intros H.
  destruct (NewRequestWithContext cx "GET" url None) as [req|e] eqn:Hreq.
  2:{ rewrite (run_Get_not_built c cx url w e Hreq) in H. discriminate. }
  exists req. split; [reflexivity|].
  destruct (Do (httpClient c) req w) as [o w'] eqn:HDo.
  rewrite (run_Get_built c cx url w w' req o Hreq HDo) in H. cbn [fst].
  destruct o as [[[resp|] [err|]]|v0]; try discriminate.
  - destruct (resp_Body resp) as [b|] eqn:Hb.
    + destruct (ReadAll b) as [body [err|]]; discriminate.
    + right. right. exists resp. split; [reflexivity | assumption].
  - right. left. reflexivity.
  - left. congruence.
Qed.
(* ===================================================================== *)
(** ** Further properties of Get                                          *)
(* ===================================================================== *)

(** X1. When the URL is refused, [Get] returns nil bytes and an error
    whose text starts with [failed to create request: ] and which
    unwraps to the parser's error; the transport is never called and its
    state is untouched. *)
Theorem Get_malformed_url_sends_nothing (c : CustomClient) (cx : context_Context)
    (url : string) (w : W) (err : error) :
  NewRequestWithContext cx "GET" url None = Err err ->
  exists e : error,
    run_Get c cx url w = (Returns (None, Some e), {| world := w; calls := [] |}) /\
    Error e = "failed to create request: " ++ Error err /\
    Unwrap e = Some err.
Proof.
  intros H. exists (Errorf "failed to create request: " err).
  rewrite (run_Get_not_built c cx url w err H). repeat split.
Qed.

(** The three texts with which [Get] marks the stage that failed. *)
Lemma Get_outcome_cases (c : CustomClient) (cx : context_Context) (url : string)
    (w : W) :
  (exists v, fst (run_Get c cx url w) = Panics v) \/
  (exists body, fst (run_Get c cx url w) = Returns (Some body, None)) \/
  (exists stage err,
     fst (run_Get c cx url w) = Returns (None, Some (Errorf stage err)) /\
     In stage ["failed to create request: "; "request failed: ";
               "failed to read response body: "]).
Proof.
  destruct (NewRequestWithContext cx "GET" url None) as [req|e] eqn:Hreq.
  2:{ rewrite (run_Get_not_built c cx url w e Hreq). right. right.
      exists "failed to create request: ", e. cbn. auto. }
  destruct (Do (httpClient c) req w) as [o w'] eqn:HDo.
  rewrite (run_Get_built c cx url w w' req o Hreq HDo).
  destruct o as [[[resp|] [err|]]|v]; cbn [fst].
  - right. right. exists "request failed: ", err. cbn. auto.
  - destruct (resp_Body resp) as [b|]; cbn [fst].
    + destruct (ReadAll b) as [body [err|]].
      * right. right. exists "failed to read response body: ", err. cbn. auto.
      * right. left. eauto.
    + left. eauto.
  - right. right. exists "request failed: ", err. cbn. auto.
  - left. eauto.
  - left. eauto.
Qed.

(** X2. Whenever [Get] returns, exactly one of its two results is nil:
    either bytes with a nil error, or nil bytes with an error that wraps
    another one under the text of one of the three stages. *)
Theorem Get_result_shape (c : CustomClient) (cx : context_Context) (url : string)
    (w : W) (b : option string) (e : option error) :
  fst (run_Get c cx url w) = Returns (b, e) ->
  (exists body, b = Some body /\ e = None) \/
  (b = None /\
   exists stage err,
     e = Some (Errorf stage err) /\
     In stage ["failed to create request: "; "request failed: ";
               "failed to read response body: "]).
Proof.
  intros H.
  destruct (Get_outcome_cases c cx url w)
    as [[v Hv]|[[body Hb]|(stage & err & Hs & Hin)]];
    rewrite H in *.
  - discriminate.
  - injection Hb as -> ->. left. eauto.
  - injection Hs as -> ->. right. eauto.
Qed.

(** X3. The calls of a run of [Get] are none, or one [Do], or one [Do]
    followed by one [ReadAll] and one [Close] of the same stream: the
    transport is never called twice, and a body is closed exactly when
    it was read. *)
Theorem Get_call_discipline (c : CustomClient) (cx : context_Context)
    (url : string) (w : W) :
  calls (snd (run_Get c cx url w)) = [] \/
  (exists req, calls (snd (run_Get c cx url w)) = [call_Do req]) \/
  (exists req b,
     calls (snd (run_Get c cx url w)) = [call_Do req; call_ReadAll b; call_Close b]).
Proof.
  destruct (NewRequestWithContext cx "GET" url None) as [req|e] eqn:Hreq.
  2:{ rewrite (run_Get_not_built c cx url w e Hreq). left. reflexivity. }
  destruct (Do (httpClient c) req w) as [o w'] eqn:HDo.
  rewrite (run_Get_built c cx url w w' req o Hreq HDo). right.
  destruct o as [[[resp|] [err|]]|v]; cbn [snd calls]; eauto.
  destruct (resp_Body resp) as [b|]; cbn [snd calls]; eauto.
Qed.

(** X5. When the transport answers with a nil error and a response whose
    [Body] is nil, [Get] panics with a nil dereference and closes
    nothing. *)
Theorem Get_panics_on_nil_Body (c : CustomClient) (cx : context_Context)
    (url : string) (w w' : W) (req : Request) (resp : Response) :
  NewRequestWithContext cx "GET" url None = Ok req ->
  Do (httpClient c) req w = (Returns (Some resp, None), w') ->
  resp_Body resp = None ->
  fst (run_Get c cx url w) = Panics nil_dereference /\
  closes (calls (snd (run_Get c cx url w))) = 0.
Proof.
  intros Hreq HDo Hb.
  rewrite (run_Get_built c cx url w w' req _ Hreq HDo), Hb. split; reflexivity.
Qed.

(** X7. [Get] looks at nothing of a response but its body: two
    transports whose answers differ in status code and headers only make
    [Get] return the same results. *)
Theorem Get_ignores_status_and_headers (c1 c2 : CustomClient)
    (cx : context_Context) (url : string) (w w' : W) (req : Request)
    (resp1 resp2 : Response) :
  NewRequestWithContext cx "GET" url None = Ok req ->
  Do (httpClient c1) req w = (Returns (Some resp1, None), w') ->
  Do (httpClient c2) req w = (Returns (Some resp2, None), w') ->
  resp_Body resp1 = resp_Body resp2 ->
  run_Get c1 cx url w = run_Get c2 cx url w.
Proof.
  intros Hreq H1 H2 Hb.
  rewrite (run_Get_built c1 cx url w w' req _ Hreq H1).
  rewrite (run_Get_built c2 cx url w w' req _ Hreq H2).
  rewrite Hb. reflexivity.
Qed.

(* ===================================================================== *)
(** ** Chains of middlewares                                              *)
(* ===================================================================== *)

Lemma apply_middlewares_app (base : HTTPClient) (ms1 ms2 : list Middleware) :
  apply_middlewares base (ms1 ++ ms2) =
  apply_middlewares (apply_middlewares base ms1) ms2.
Proof.
  revert base. induction ms1 as [|m ms1 IH]; intros base; [reflexivity|].
  cbn [app apply_middlewares]. apply IH.
Qed.

(** X8. Building a client on top of the transport of another client is
    building one client from the two lists of middlewares, in order. *)
Theorem NewCustomClient_app (base : HTTPClient) (ms1 ms2 : list Middleware) :
  NewCustomClient (httpClient (NewCustomClient base ms1)) ms2 =
  NewCustomClient base (ms1 ++ ms2).
Proof.
  unfold NewCustomClient; cbn [httpClient]. f_equal.
  symmetry. apply apply_middlewares_app.
Qed.

Lemma same_but_Authorization_refl (req : Request) :
  same_but_Authorization req req.
Proof. unfold same_but_Authorization. repeat split. Qed.

Lemma same_but_Authorization_trans (r1 r2 r3 : Request) :
  same_but_Authorization r1 r2 -> same_but_Authorization r2 r3 ->
  same_but_Authorization r1 r3.
Proof.
  unfold same_but_Authorization.
  intros (A1 & A2 & A3 & A4 & A5) (B1 & B2 & B3 & B4 & B5).
  repeat split; congruence.
Qed.

(** What an authentication middleware does to the request. *)
Lemma auth_middleware_decorates (m : Middleware) :
  auth_middleware m ->
  exists value : string,
    forall (client : HTTPClient) (req : Request) (w : W),
      Do (m client) req w =
      Do client (set_Header "Authorization" value req) w.
Proof.
  intros [username password|apiKey].
  - exists ("Basic " ++ basicAuth username password). reflexivity.
  - exists ("Bearer " ++ apiKey). reflexivity.
Qed.

(** Setting the Authorization header forgets what it held before. *)
Lemma set_Header_masks (value : string) (req req' : Request) :
  same_but_Authorization req req' ->
  set_Header "Authorization" value req' = set_Header "Authorization" value req.
Proof.
  destruct req as [m u h b c], req' as [m' u' h' b' c'].
  unfold same_but_Authorization, set_Header, Header_Set; cbn.
  intros (-> & -> & -> & -> & Hh). f_equal.
  rewrite Canonical_Authorization.
  rewrite <- (insert_delete_eq h'), <- (insert_delete_eq h), Hh. reflexivity.
Qed.

(** A chain of authentication middlewares rewrites the request the same
    way whatever transport it is put on. *)
Lemma auth_chain_decorates (ms : list Middleware) (req : Request) :
  Forall auth_middleware ms ->
  exists req' : Request,
    same_but_Authorization req req' /\
    forall (base : HTTPClient) (w : W),
      Do (apply_middlewares base ms) req w = Do base req' w.
Proof.
  induction 1 as [|m ms Hm Hms (req1 & Hsame & IH)].
  - exists req. split; [apply same_but_Authorization_refl | reflexivity].
  - destruct (auth_middleware_decorates m Hm) as [value Hv].
    exists (set_Header "Authorization" value req1). split.
    + eapply same_but_Authorization_trans; [exact Hsame|].
      apply set_Header_frame.
    + intros base w. cbn [apply_middlewares]. rewrite IH. apply Hv.
Qed.

(** X9. However many authentication middlewares are chained, the base
    transport is called once, on a request that differs from the one
    sent in the Authorization header only, and its result is returned
    unchanged. *)
Theorem auth_chain_frame (ms : list Middleware) (req : Request) :
  Forall auth_middleware ms ->
  exists req' : Request,
    same_but_Authorization req req' /\
    forall (base : HTTPClient) (w : W),
      Do (httpClient (NewCustomClient base ms)) req w = Do base req' w.
Proof. intros H. apply (auth_chain_decorates ms req H). Qed.

(** X10. In a chain of authentication middlewares only the first-listed
    one counts: the client sends exactly what it would send with that
    middleware alone. *)
Theorem first_listed_auth_masks_rest (base : HTTPClient) (m : Middleware)
    (ms : list Middleware) (req : Request) (w : W) :
  auth_middleware m ->
  Forall auth_middleware ms ->
  Do (httpClient (NewCustomClient base (m :: ms))) req w =
  Do (httpClient (NewCustomClient base [m])) req w.
Proof.
  intros Hm Hms. unfold NewCustomClient; cbn [httpClient apply_middlewares].
  destruct (auth_chain_decorates ms req Hms) as (req1 & Hsame & Hchain).
  destruct (auth_middleware_decorates m Hm) as [value Hv].
  rewrite Hchain, !Hv, (set_Header_masks value req req1 Hsame). reflexivity.
Qed.

(** X6. Neither the authentication middlewares nor [Get] recover from a
    panic of the base transport: [Get] panics with the same value, right
    after its call of [Do]. *)
Theorem Get_propagates_transport_panic (base : HTTPClient)
    (ms : list Middleware) (cx : context_Context) (url : string) (w w' : W)
    (req : Request) (v : string) :
  Forall auth_middleware ms ->
  NewRequestWithContext cx "GET" url None = Ok req ->
  (forall r : Request, Do base r w = (Panics v, w')) ->
  run_Get (NewCustomClient base ms) cx url w =
  (Panics v, {| world := w'; calls := [call_Do req] |}).
Proof.
  intros Hms Hreq Hpanic.
  destruct (auth_chain_decorates ms req Hms) as (req1 & _ & Hchain).
  apply (run_Get_built (NewCustomClient base ms) cx url w w' req (Panics v) Hreq).
  cbn [httpClient NewCustomClient]. rewrite Hchain. apply Hpanic.
Qed.

(* ===================================================================== *)
(** ** The Basic-Auth header                                              *)
(* ===================================================================== *)

Lemma all_bytes_impl (f g : ascii -> bool) (s : string) :
  (forall c, f c = true -> g c = true) ->
  all_bytes f s = true -> all_bytes g s = true.
Proof.
  intros Hfg. induction s as [|c s IH]; cbn [all_bytes]; [trivial|].
  rewrite !andb_true_iff. intros [Hc Hs]. auto.
Qed.

Lemma all_bytes_app (f : ascii -> bool) (s t : string) :
  all_bytes f s = true -> all_bytes f t = true -> all_bytes f (s ++ t) = true.
Proof.
  intros Hs Ht. induction s as [|c s IH]; [exact Ht|].
  rewrite append_cons. cbn [all_bytes] in *.
  apply andb_true_iff in Hs as [Hc Hs]. rewrite Hc. apply IH, Hs.
Qed.

(** A character of the base64 text: of the alphabet, or the padding. *)
Definition base64_char (c : ascii) : bool :=
  Base64.valid c || Ascii.eqb c Base64.padChar.

Lemma base64_char_sextet (val sh : N) : base64_char (Base64.sextet val sh) = true.
Proof. unfold base64_char. rewrite valid_sextet. reflexivity. Qed.

Lemma base64_char_low (val : N) :
  base64_char (Base64.encode (N.land val 63)) = true.
Proof. unfold base64_char. rewrite valid_low. reflexivity. Qed.

(** The encoder writes nothing but alphabet characters and padding. *)
Lemma EncodeToString_alphabet (src : string) :
  all_bytes base64_char (Base64.EncodeToString src) = true.
Proof.
  induction src as [|b0|b0 b1|b0 b1 b2 rest IH] using string_groups_ind;
    cbn [Base64.EncodeToString all_bytes];
    rewrite ?base64_char_sextet, ?base64_char_low, ?IH; reflexivity.
Qed.

Lemma base64_char_not_control (c : ascii) :
  base64_char c = true -> negb (is_control c) = true.
Proof.
  destruct c as [[] [] [] [] [] [] [] []]; vm_compute; congruence.
Qed.

Lemma EncodeToString_length (src : string) :
  String.length (Base64.EncodeToString src) = 4 * ((String.length src + 2) / 3).
Proof.
  induction src as [|b0|b0 b1|b0 b1 b2 rest IH] using string_groups_ind;
    cbn [Base64.EncodeToString String.length]; try reflexivity.
  rewrite IH.
  replace (S (S (S (String.length rest))) + 2) with (1 * 3 + (String.length rest + 2))
    by lia.
  rewrite Nat.div_add_l by discriminate. lia.
Qed.

(** X13. Base64 round trip: decoding the encoder's output gives back
    the bytes encoded, whatever they are; the output has four characters
    for every three bytes, the last group padded, and holds alphabet
    characters and padding only. *)
Theorem Base64_round_trip (src : string) :
  Base64.DecodeString (Base64.EncodeToString src) = Some src /\
  String.length (Base64.EncodeToString src) = 4 * ((String.length src + 2) / 3) /\
  all_bytes base64_char (Base64.EncodeToString src) = true.
Proof.
  split; [apply DecodeString_EncodeToString|].
  split; [apply EncodeToString_length | apply EncodeToString_alphabet].
Qed.

(** X11. Whatever bytes the user name and the password hold, line breaks
    included, the Authorization value that [BasicAuthMiddleware] sets
    contains no control character. *)
Theorem BasicAuth_header_has_no_control (username password : string)
    (req : Request) :
  exists req' : Request,
    (forall (client : HTTPClient) (w : W),
       Do (BasicAuthMiddleware username password client) req w = Do client req' w) /\
    no_control (Header_Get "Authorization" (req_Header req')).
Proof.
  exists (SetBasicAuth username password req). split; [reflexivity|].
  unfold SetBasicAuth; cbn [req_Header].
  rewrite Header_Get_Set_Authorization.
  unfold no_control, basicAuth. apply all_bytes_app; [reflexivity|].
  eapply all_bytes_impl; [apply base64_char_not_control|].
  apply EncodeToString_alphabet.
Qed.

(** X12. Two different pairs of credentials whose user names hold no
    colon never get the same Authorization value from
    [BasicAuthMiddleware]. *)
Theorem BasicAuth_header_injective (u1 p1 u2 p2 : string) (r1 r2 : Request) :
  no_colon u1 -> no_colon u2 ->
  (u1, p1) <> (u2, p2) ->
  Header_Get "Authorization" (req_Header (SetBasicAuth u1 p1 r1)) <>
  Header_Get "Authorization" (req_Header (SetBasicAuth u2 p2 r2)).
Proof.
  intros H1 H2 Hne Heq. apply Hne.
  unfold SetBasicAuth in Heq; cbn [req_Header] in Heq.
  rewrite !Header_Get_Set_Authorization in Heq.
  apply (f_equal parseBasicAuth) in Heq.
  rewrite !parseBasicAuth_basicAuth, !Cut_colon_pair in Heq by assumption.
  congruence.
Qed.

(* ===================================================================== *)
(** ** The entry point                                                    *)
(* ===================================================================== *)

(** The request [main] makes the base transport send. *)
Lemma main_request (DefaultClient : HTTPClient) (Background : context_Context)
    (u : URL) (w : W) :
  Do (httpClient (NewCustomClient DefaultClient
                    [APIKeyAuthMiddleware "your-api-key-here"]))
     {| Method := "GET"; req_URL := u; req_Header := ∅; req_Body := None;
        ctx := Background |} w =
  Do DefaultClient
     {| Method := "GET"; req_URL := u;
        req_Header := {["Authorization" := ["Bearer your-api-key-here"]]};
        req_Body := None; ctx := Background |} w.
Proof. reflexivity. Qed.

Lemma main_built (Background : context_Context) (u : URL) :
  url_Parse "https://your-api-endpoint.com" = Ok u ->
  NewRequestWithContext Background "GET" "https://your-api-endpoint.com" None =
  Ok {| Method := "GET"; req_URL := u; req_Header := ∅; req_Body := None;
        ctx := Background |}.
Proof. intros H. apply NewRequestWithContext_parsed, H. Qed.

(** X14. When the endpoint parses and the base transport, given the GET
    request whose only header is [Authorization: Bearer
    your-api-key-here], answers with an error, [main] prints [Error:
    request failed: ], the text of that error and a line feed. *)
Theorem main_prints_transport_error (DefaultClient : HTTPClient)
    (Background : context_Context) (u : URL) (w w' : W)
    (resp : option Response) (err : error) :
  url_Parse "https://your-api-endpoint.com" = Ok u ->
  Do DefaultClient
     {| Method := "GET"; req_URL := u;
        req_Header := {["Authorization" := ["Bearer your-api-key-here"]]};
        req_Body := None; ctx := Background |} w =
    (Returns (resp, Some err), w') ->
  fst (run_main url_Parse DefaultClient Background w) =
    Returns ("Error: request failed: " ++ Error err ++ newline) /\
  world (snd (run_main url_Parse DefaultClient Background w)) = w'.
Proof.
  intros Hu HDo. rewrite <- main_request in HDo.
  unfold run_main, main, bind.
  change (Get url_Parse ?c ?cx ?url {| world := w; calls := [] |})
    with (run_Get c cx url w).
  rewrite (run_Get_built _ _ _ w w' _ _ (main_built Background u Hu) HDo).
  destruct resp; split; reflexivity.
Qed.

(** X15. When the endpoint parses and the base transport answers that
    request with a body that reads to its end, [main] prints the bytes
    of the body and a line feed, whatever the status code, and the body
    is closed once. *)
Theorem main_prints_body (DefaultClient : HTTPClient)
    (Background : context_Context) (u : URL) (w w' : W)
    (resp : Response) (b : ReadCloser) :
  url_Parse "https://your-api-endpoint.com" = Ok u ->
  Do DefaultClient
     {| Method := "GET"; req_URL := u;
        req_Header := {["Authorization" := ["Bearer your-api-key-here"]]};
        req_Body := None; ctx := Background |} w =
    (Returns (Some resp, None), w') ->
  resp_Body resp = Some b ->
  final_error b = EOF ->
  fst (run_main url_Parse DefaultClient Background w) =
    Returns (delivered b ++ newline) /\
  closes (calls (snd (run_main url_Parse DefaultClient Background w))) = 1.
Proof.
  intros Hu HDo Hb Heof. rewrite <- main_request in HDo.
  unfold run_main, main, bind.
  change (Get url_Parse ?c ?cx ?url {| world := w; calls := [] |})
    with (run_Get c cx url w).
  rewrite (run_Get_built _ _ _ w w' _ _ (main_built Background u Hu) HDo).
  rewrite Hb, (ReadAll_EOF b Heof). split; reflexivity.
Qed.

End Properties.

(* ===================================================================== *)
(** ** Runs on the mock transport                                         *)
(* ===================================================================== *)

Example EncodeToString_vectors :
  Base64.EncodeToString "" = "" /\
  Base64.EncodeToString "f" = "Zg==" /\
  Base64.EncodeToString "fo" = "Zm8=" /\
  Base64.EncodeToString "foo" = "Zm9v" /\
  Base64.EncodeToString "foobar" = "Zm9vYmFy" /\
  Base64.EncodeToString "user:pass" = "dXNlcjpwYXNz".
Proof. repeat split. Qed.

Example DecodeString_vectors :
  Base64.DecodeString "Zm9vYmFy" = Some "foobar" /\
  Base64.DecodeString "Zm8=" = Some "fo" /\
  Base64.DecodeString "Zg==" = Some "f" /\
  Base64.DecodeString "Zg=" = None /\
  Base64.DecodeString "Zg" = None /\
  Base64.DecodeString "Zm9v!mFy" = None.
Proof. repeat split. Qed.

Example CanonicalMIMEHeaderKey_vectors :
  CanonicalMIMEHeaderKey "authorization" = "Authorization" /\
  CanonicalMIMEHeaderKey "content-type" = "Content-Type" /\
  CanonicalMIMEHeaderKey "x-API key" = "x-API key".
Proof. repeat split. Qed.

(** With two API-key middlewares the first-listed key reaches the base
    transport: its mutation runs last. *)
Example first_listed_key_wins (base : @HTTPClient nat unit string) (w : nat) :
  exists req' : Request,
    Do (httpClient (NewCustomClient base
          [APIKeyAuthMiddleware "first"; APIKeyAuthMiddleware "second"]))
       mock_request w = Do base req' w /\
    req_Header req' !! "Authorization" = Some ["Bearer first"].
Proof.
  exists (set_Header "Authorization" "Bearer first"
            (set_Header "Authorization" "Bearer second" mock_request)).
  split; [reflexivity|]. apply Header_Set_Authorization.
Qed.

(** Counterexample to C2 as stated: the pair [("a:b", "c")] holds no
    control character, yet the header made from it decodes to
    [("a", "b:c")], the pair that produces the very same header. *)
Lemma BasicAuth_username_with_colon :
  no_control "a:b" /\ no_control "c" /\
  Header_Get "Authorization"
    (req_Header (SetBasicAuth "a:b" "c" mock_request)) = "Basic YTpiOmM=" /\
  parseBasicAuth
    (Header_Get "Authorization"
       (req_Header (SetBasicAuth "a:b" "c" mock_request))) = Some ("a", "b:c") /\
  parseBasicAuth
    (Header_Get "Authorization"
       (req_Header (SetBasicAuth "a:b" "c" mock_request))) <> Some ("a:b", "c") /\
  Header_Get "Authorization"
    (req_Header (SetBasicAuth "a" "b:c" mock_request)) = "Basic YTpiOmM=".
Proof.
  unfold SetBasicAuth; cbn [req_Header].
  rewrite !Header_Get_Set_Authorization.
  repeat split; try reflexivity.
  vm_compute. discriminate.
Qed.

Lemma BasicAuthMiddleware_header_decodes_witness :
  no_colon "user" /\
  exists req' : Request,
    (forall (client : HTTPClient) (w : nat),
       Do (BasicAuthMiddleware "user" "pass" client) mock_request w =
       Do client req' w) /\
    req_Header req' !! "Authorization" = Some ["Basic dXNlcjpwYXNz"] /\
    Header_Get "Authorization" (req_Header req') = "Basic dXNlcjpwYXNz" /\
    parseBasicAuth (Header_Get "Authorization" (req_Header req')) =
      Some ("user", "pass").
Proof.
  split; [reflexivity|].
  apply (BasicAuthMiddleware_header_decodes (W:=nat) "user" "pass" mock_request).
  reflexivity.
Defined.

Lemma Get_returns_body_witness :
  run_Get mock_Parse
    (NewCustomClient (mock (Some hello_response, None))
       [APIKeyAuthMiddleware "key"]) tt "http://example.test" 0 =
  (Returns (Some "hello", None),
   {| world := 1;
      calls := [call_Do mock_request;
                call_ReadAll (Read_more "hel" (Read_stop "lo" EOF));
                call_Close (Read_more "hel" (Read_stop "lo" EOF))] |}).
Proof.
  apply (Get_returns_body mock_Parse
           (NewCustomClient (mock (Some hello_response, None))
              [APIKeyAuthMiddleware "key"])
           tt "http://example.test" 0 1 mock_request hello_response
           (Read_more "hel" (Read_stop "lo" EOF)));
    reflexivity.
Defined.

Lemma Get_wraps_transport_error_witness :
  exists e : error,
    run_Get mock_Parse (NewCustomClient (mock (None, Some refused)) [])
      tt "http://example.test" 0 =
      (Returns (None, Some e), {| world := 1; calls := [call_Do mock_request] |}) /\
    Error e = "request failed: connection refused" /\
    Contains (Error e) "request failed" = true /\
    Unwrap e = Some refused.
Proof.
  apply (Get_wraps_transport_error mock_Parse
           (NewCustomClient (mock (None, Some refused)) [])
           tt "http://example.test" 0 1 mock_request None refused);
    reflexivity.
Defined.

Lemma no_middleware_is_base_witness :
  httpClient (NewCustomClient (mock (Some hello_response, None)) []) =
    mock (Some hello_response, None) /\
  (forall (r : Request) (w0 : nat),
     Do (httpClient (NewCustomClient (mock (Some hello_response, None)) [])) r w0 =
     Do (mock (Some hello_response, None)) r w0) /\
  exists cs : list call,
    calls (snd (run_Get mock_Parse
                  (NewCustomClient (mock (Some hello_response, None)) [])
                  tt "http://example.test" 0)) = call_Do mock_request :: cs /\
    Forall (fun k => match k with call_Do _ => False | _ => True end) cs /\
    world (snd (run_Get mock_Parse
                  (NewCustomClient (mock (Some hello_response, None)) [])
                  tt "http://example.test" 0)) =
      snd (Do (mock (Some hello_response, None)) mock_request 0).
Proof.
  apply (no_middleware_is_base mock_Parse (mock (Some hello_response, None))
           tt "http://example.test" 0 mock_request).
  reflexivity.
Defined.

Lemma Get_read_failure_returns_nil_witness :
  exists e : error,
    run_Get mock_Parse (NewCustomClient (mock (Some torn_response, None)) [])
      tt "http://example.test" 0 =
      (Returns (None, Some e),
       {| world := 1;
          calls := [call_Do mock_request;
                    call_ReadAll (Read_more "hel"
                                    (Read_stop "" (errorString 2 "unexpected EOF")));
                    call_Close (Read_more "hel"
                                  (Read_stop "" (errorString 2 "unexpected EOF")))] |}) /\
    Error e = "failed to read response body: unexpected EOF" /\
    Contains (Error e) "failed to read response body" = true /\
    Unwrap e = Some (errorString 2 "unexpected EOF").
Proof.
  apply (Get_read_failure_returns_nil mock_Parse
           (NewCustomClient (mock (Some torn_response, None)) [])
           tt "http://example.test" 0 1 mock_request torn_response
           (Read_more "hel" (Read_stop "" (errorString 2 "unexpected EOF"))));
    try reflexivity.
  discriminate.
Defined.

Lemma Get_closes_body_once_witness :
  closes (calls (snd (run_Get mock_Parse
                        (NewCustomClient (mock (Some torn_response, None)) [])
                        tt "http://example.test" 0))) = 1 /\
  last (calls (snd (run_Get mock_Parse
                      (NewCustomClient (mock (Some torn_response, None)) [])
                      tt "http://example.test" 0))) =
    Some (call_Close (Read_more "hel"
                        (Read_stop "" (errorString 2 "unexpected EOF")))) /\
  forall (A : Type) (rest : @G nat unit string A) (s : state),
    fst (defer (Body_Close (Read_more "hel"
                              (Read_stop "" (errorString 2 "unexpected EOF"))))
           rest s) = fst (rest s) /\
    calls (snd (defer (Body_Close (Read_more "hel"
                                     (Read_stop "" (errorString 2 "unexpected EOF"))))
                  rest s)) =
      (calls (snd (rest s)) ++
       [call_Close (Read_more "hel"
                      (Read_stop "" (errorString 2 "unexpected EOF")))])%list.
Proof.
  apply (Get_closes_body_once mock_Parse
           (NewCustomClient (mock (Some torn_response, None)) [])
           tt "http://example.test" 0 1 mock_request torn_response
           (Read_more "hel" (Read_stop "" (errorString 2 "unexpected EOF"))));
    reflexivity.
Defined.

(** Counterexample to C9 as stated: the transport returns a nil error
    with a nil response, or with a response whose [Body] is nil; [Get]
    panics and closes nothing. *)
Lemma Get_nil_error_without_stream :
  (Do (httpClient (NewCustomClient (mock (None, None)) [])) mock_request 0 =
     (Returns (None, None), 1) /\
   fst (run_Get mock_Parse (NewCustomClient (mock (None, None)) [])
          tt "http://example.test" 0) = Panics nil_dereference /\
   closes (calls (snd (run_Get mock_Parse (NewCustomClient (mock (None, None)) [])
                         tt "http://example.test" 0))) = 0) /\
  (Do (httpClient (NewCustomClient (mock (Some bodiless_response, None)) []))
      mock_request 0 = (Returns (Some bodiless_response, None), 1) /\
   fst (run_Get mock_Parse (NewCustomClient (mock (Some bodiless_response, None)) [])
          tt "http://example.test" 0) = Panics nil_dereference /\
   closes (calls (snd (run_Get mock_Parse
                         (NewCustomClient (mock (Some bodiless_response, None)) [])
                         tt "http://example.test" 0))) = 0).
Proof. repeat split. Qed.

Lemma Get_panics_on_nil_response_witness :
  run_Get mock_Parse (NewCustomClient (mock (None, None)) [])
    tt "http://example.test" 0 =
  (Panics nil_dereference, {| world := 1; calls := [call_Do mock_request] |}).
Proof.
  apply (Get_panics_on_nil_response mock_Parse
           (NewCustomClient (mock (None, None)) [])
           tt "http://example.test" 0 1 mock_request);
    reflexivity.
Defined.

(* ===================================================================== *)
(** ** Further runs on the mock transport                                 *)
(* ===================================================================== *)

Lemma Get_malformed_url_sends_nothing_witness :
  exists e : error,
    run_Get mock_Parse (NewCustomClient (mock (Some hello_response, None)) [])
      tt "" 7 = (Returns (None, Some e), {| world := 7; calls := [] |}) /\
    Error e = "failed to create request: parse: empty url" /\
    Unwrap e = Some (errorString 0 "parse: empty url").
Proof.
  apply (Get_malformed_url_sends_nothing mock_Parse
           (NewCustomClient (mock (Some hello_response, None)) []) tt "" 7
           (errorString 0 "parse: empty url")).
  reflexivity.
Defined.

Lemma Get_result_shape_witness :
  (exists body, Some "hello" = Some body /\ @None error = None) \/
  (Some "hello" = None /\
   exists stage err,
     @None error = Some (Errorf stage err) /\
     In stage ["failed to create request: "; "request failed: ";
               "failed to read response body: "]).
Proof.
  apply (Get_result_shape mock_Parse
           (NewCustomClient (mock (Some hello_response, None)) [])
           tt "http://example.test" 0 (Some "hello") None).
  reflexivity.
Defined.

Lemma Get_panics_on_nil_Body_witness :
  fst (run_Get mock_Parse (NewCustomClient (mock (Some bodiless_response, None)) [])
         tt "http://example.test" 0) = Panics nil_dereference /\
  closes (calls (snd (run_Get mock_Parse
                        (NewCustomClient (mock (Some bodiless_response, None)) [])
                        tt "http://example.test" 0))) = 0.
Proof.
  apply (Get_panics_on_nil_Body mock_Parse
           (NewCustomClient (mock (Some bodiless_response, None)) [])
           tt "http://example.test" 0 1 mock_request bodiless_response);
    reflexivity.
Defined.

Lemma Get_propagates_transport_panic_witness :
  run_Get mock_Parse
    (NewCustomClient broken
       [APIKeyAuthMiddleware "key"; BasicAuthMiddleware "user" "pass"])
    tt "http://example.test" 3 =
  (Panics "transport: broken pipe", {| world := 3; calls := [call_Do mock_request] |}).
Proof.
  apply (Get_propagates_transport_panic mock_Parse broken
           [APIKeyAuthMiddleware "key"; BasicAuthMiddleware "user" "pass"]
           tt "http://example.test" 3 3 mock_request "transport: broken pipe").
  - repeat constructor.
  - reflexivity.
  - reflexivity.
Defined.

Lemma Get_ignores_status_and_headers_witness :
  run_Get mock_Parse (NewCustomClient (mock (Some hello_response, None)) [])
    tt "http://example.test" 0 =
  run_Get mock_Parse (NewCustomClient (mock (Some error_page, None)) [])
    tt "http://example.test" 0.
Proof.
  apply (Get_ignores_status_and_headers mock_Parse
           (NewCustomClient (mock (Some hello_response, None)) [])
           (NewCustomClient (mock (Some error_page, None)) [])
           tt "http://example.test" 0 1 mock_request hello_response error_page);
    reflexivity.
Defined.

Lemma auth_chain_frame_witness :
  exists req' : Request,
    same_but_Authorization mock_request req' /\
    forall (base : @HTTPClient nat unit string) (w : nat),
      Do (httpClient (NewCustomClient base
            [BasicAuthMiddleware "user" "pass"; APIKeyAuthMiddleware "key"]))
         mock_request w = Do base req' w.
Proof.
  apply (auth_chain_frame (W:=nat)
           [BasicAuthMiddleware "user" "pass"; APIKeyAuthMiddleware "key"]
           mock_request).
  repeat constructor.
Defined.

Lemma first_listed_auth_masks_rest_witness :
  Do (httpClient (NewCustomClient (mock (Some hello_response, None))
        [BasicAuthMiddleware "user" "pass"; APIKeyAuthMiddleware "key";
         BasicAuthMiddleware "other" "secret"])) mock_request 0 =
  Do (httpClient (NewCustomClient (mock (Some hello_response, None))
        [BasicAuthMiddleware "user" "pass"])) mock_request 0.
Proof.
  apply (first_listed_auth_masks_rest (mock (Some hello_response, None))
           (BasicAuthMiddleware "user" "pass")
           [APIKeyAuthMiddleware "key"; BasicAuthMiddleware "other" "secret"]
           mock_request 0);
    repeat constructor.
Defined.

Lemma BasicAuth_header_injective_witness :
  Header_Get "Authorization"
    (req_Header (SetBasicAuth "user" "pass" mock_request)) <>
  Header_Get "Authorization"
    (req_Header (SetBasicAuth "user" "word" mock_request)).
Proof.
  apply (BasicAuth_header_injective "user" "pass" "user" "word"
           mock_request mock_request);
    try reflexivity.
  discriminate.
Defined.

Lemma main_prints_transport_error_witness :
  fst (run_main mock_Parse (mock (None, Some refused)) tt 0) =
    Returns ("Error: request failed: " ++ Error refused ++ newline) /\
  world (snd (run_main mock_Parse (mock (None, Some refused)) tt 0)) = 1.
Proof.
  apply (main_prints_transport_error mock_Parse (mock (None, Some refused)) tt
           "https://your-api-endpoint.com" 0 1 None refused);
    reflexivity.
Defined.

Lemma main_prints_body_witness :
  fst (run_main mock_Parse (mock (Some error_page, None)) tt 0) =
    Returns ("hello" ++ newline) /\
  closes (calls (snd (run_main mock_Parse (mock (Some error_page, None)) tt 0))) = 1.
Proof.
  apply (main_prints_body mock_Parse (mock (Some error_page, None)) tt
           "https://your-api-endpoint.com" 0 1 error_page
           (Read_more "hel" (Read_stop "lo" EOF)));
    reflexivity.
Defined.
